(** * Rate-limiting wrapper of warden-worker (src/rate-limit-wrapper.js)

    A shallow embedding of the JavaScript module that sits in front of the
    WASM backend: the policy table [RATE_LIMITED_ENDPOINTS], the key
    extractor [extractRateLimitKey], the check [checkRateLimit], the 429
    response [createRateLimitResponse] and the two entry points [fetch] and
    [scheduled].

    Effects are written out: every function returns the state of the
    external limiter service it may have advanced and the console output /
    body reads it produced, as a list of [Event]s.  The host runtime
    (body parsers, [String.prototype.toLowerCase], the limiter service and
    the WASM backend) is a record [Host] of parameters. *)

From Stdlib Require Import String Ascii List Bool ZArith NArith Lia.
Import ListNotations.
Open Scope string_scope.
Set Warnings "-register-all".

(** ** JavaScript values produced by the runtime *)

(** A value produced by [JSON.parse] (numbers are kept integral). *)
Inductive json : Type :=
| JNull
| JBool (b : bool)
| JNum (n : Z)
| JStr (s : string)
| JArr (l : list json)
| JObj (fields : list (string * json)).

(** The result of a property read: [undefined] or a JSON value. *)
Inductive jsval : Type :=
| JUndef
| JV (v : json).

(** JavaScript truthiness of a value ([if (x)], [x || y]). *)
Definition truthy (v : jsval) : bool :=
  match v with
  | JUndef => false
  | JV JNull => false
  | JV (JBool b) => b
  | JV (JNum n) => negb (Z.eqb n 0)
  | JV (JStr s) => negb (String.eqb s "")
  | JV (JArr _) => true
  | JV (JObj _) => true
  end.

(** Own-property lookup in an object parsed by [JSON.parse]: a duplicated
    key keeps its last value. *)
Fixpoint obj_lookup (fs : list (string * json)) (k : string) : jsval :=
  match fs with
  | [] => JUndef
  | (k', v) :: rest =>
      match obj_lookup rest k with
      | JUndef => if String.eqb k k' then JV v else JUndef
      | r => r
      end
  end.

(** [v.k] on a parsed JSON value; [None] is the TypeError raised on [null].
    Property names used here ("email", "username") are not inherited by
    arrays, strings, numbers or booleans, so these read [undefined]. *)
Definition get_prop (v : json) (k : string) : option jsval :=
  match v with
  | JNull => None
  | JObj fs => Some (obj_lookup fs k)
  | _ => Some JUndef
  end.

(** ** Strings *)

(** ASCII lower-casing of one character. *)
Definition ascii_lower (c : ascii) : ascii :=
  let n := nat_of_ascii c in
  if (65 <=? n)%nat && (n <=? 90)%nat then ascii_of_nat (n + 32)%nat else c.

Fixpoint ascii_lower_string (s : string) : string :=
  match s with
  | EmptyString => EmptyString
  | String c rest => String (ascii_lower c) (ascii_lower_string rest)
  end.

Fixpoint is_prefix (p s : string) : bool :=
  match p, s with
  | EmptyString, _ => true
  | String a p', String b s' => Ascii.eqb a b && is_prefix p' s'
  | String _ _, EmptyString => false
  end.

(** [s.includes(sub)]. *)
Fixpoint includes (s sub : string) : bool :=
  is_prefix sub s ||
  match s with
  | EmptyString => false
  | String _ rest => includes rest sub
  end.

(** The double quote character. *)
Definition dq : string := String (ascii_of_nat 34) EmptyString.

(** ** Requests, responses, headers *)

(** A header list as received; names are matched case-insensitively. *)
Definition Headers := list (string * string).

Fixpoint join_values (vs : list string) : string :=
  match vs with
  | [] => ""
  | [v] => v
  | v :: rest => v ++ ", " ++ join_values rest
  end.

(** [headers.get(name)]: [null] when absent, otherwise all values of the
    name joined by ", ". *)
Definition hdr_get (h : Headers) (name : string) : option string :=
  let vs := map snd (filter (fun p => String.eqb (ascii_lower_string (fst p))
                                                   (ascii_lower_string name)) h) in
  match vs with
  | [] => None
  | _ => Some (join_values vs)
  end.

(** An incoming request: [new URL(request.url).pathname], its headers and
    its raw body. *)
Record Request : Type := mkRequest {
  req_pathname : string;
  req_headers : Headers;
  req_body : string
}.

Record Response : Type := mkResponse {
  resp_status : Z;
  resp_headers : Headers;
  resp_body : string
}.

(** A scheduled (cron) event. *)
Record ScheduledEvent : Type := mkScheduledEvent {
  ev_cron : string;
  ev_scheduledTime : Z
}.

(** The environment bindings: the names bound to a truthy value. *)
Definition Env := list string.

Definition env_bound (env : Env) (name : string) : bool :=
  existsb (String.eqb name) env.

(** Form data from [formData()] of an urlencoded body, in order. *)
Definition FormData := list (string * string).

(** [formData.get(name)]: the first value of the name, [null] if none. *)
Fixpoint form_get (fd : FormData) (name : string) : option string :=
  match fd with
  | [] => None
  | (k, v) :: rest => if String.eqb k name then Some v else form_get rest name
  end.

(** What [await limiter.limit({ key })] does: resolve to an object whose
    [success] field has the given truthiness, or throw / reject. *)
Inductive LimitReply : Type :=
| Reply (success : bool)
| Throws.

(** Observable effects: body reads, limiter calls and console output. *)
Inductive Event : Type :=
| BodyRead
| LimitCall (limiter key : string)
| Warn (msg : string)
| LogError (msg : string).

(** The host runtime: body parsers ([None] = the promise rejects),
    [String.prototype.toLowerCase], the external limiter service over its
    own state [S], and the WASM backend's two entry points. *)
Record Host (S : Type) : Type := mkHost {
  parse_form : string -> option FormData;
  parse_json : string -> option json;
  toLowerCase : string -> string;
  limit_svc : string -> string -> S -> LimitReply * S;
  wasm_fetch : Env -> Request -> Response;
  wasm_scheduled : Env -> ScheduledEvent -> Response
}.

Arguments parse_form {S} _ _.
Arguments parse_json {S} _ _.
Arguments toLowerCase {S} _ _.
Arguments limit_svc {S} _ _ _ _.
Arguments wasm_fetch {S} _ _ _.
Arguments wasm_scheduled {S} _ _ _.

(** ** [JSON.stringify] *)

Definition hex_digit (n : nat) : ascii :=
  if (n <? 10)%nat then ascii_of_nat (48 + n) else ascii_of_nat (87 + n).

(** QuoteJSONString on one character: the two-character escapes, [\u00XX]
    for the other control characters, every other character as is. *)
Definition escape_char (c : ascii) : string :=
  let n := nat_of_ascii c in
  match n with
  | 8 => "\b" | 9 => "\t" | 10 => "\n" | 12 => "\f" | 13 => "\r"
  | 34 => String "\" dq | 92 => "\\"
  | _ => if (n <? 32)%nat
         then "\u00" ++ String (hex_digit (n / 16)) (String (hex_digit (n mod 16)) EmptyString)
         else String c EmptyString
  end.

Fixpoint escape_string (s : string) : string :=
  match s with
  | EmptyString => EmptyString
  | String c rest => escape_char c ++ escape_string rest
  end.

Definition quote (s : string) : string := dq ++ escape_string s ++ dq.

Fixpoint N_digits (fuel : nat) (n : N) (acc : string) : string :=
  match fuel with
  | O => acc
  | S fuel' =>
      let acc' := String (ascii_of_N (48 + N.modulo n 10)) acc in
      if (n <? 10)%N then acc' else N_digits fuel' (N.div n 10) acc'
  end.

Definition number_to_string (z : Z) : string :=
  let digits := N_digits (S (N.size_nat (Z.abs_N z))) (Z.abs_N z) "" in
  if (z <? 0)%Z then "-" ++ digits else digits.

Fixpoint join_comma (l : list string) : string :=
  match l with
  | [] => ""
  | [x] => x
  | x :: rest => x ++ "," ++ join_comma rest
  end.

Fixpoint stringify (j : json) : string :=
  match j with
  | JNull => "null"
  | JBool true => "true"
  | JBool false => "false"
  | JNum n => number_to_string n
  | JStr s => quote s
  | JArr l => "[" ++ join_comma (map stringify l) ++ "]"
  | JObj fs =>
      "{" ++ join_comma (map (fun kv => quote (fst kv) ++ ":" ++ stringify (snd kv)) fs) ++ "}"
  end.

(** ** The policy table *)

(** [keyType] is kept as the string the source compares against. *)
Record EndpointConfig : Type := mkEndpointConfig {
  limiter : string;
  keyType : string
}.

Definition RATE_LIMITED_ENDPOINTS : list (string * EndpointConfig) :=
  [ ("/identity/connect/token", mkEndpointConfig "LOGIN_RATE_LIMITER" "email");
    ("/api/accounts/register", mkEndpointConfig "LOGIN_RATE_LIMITER" "ip");
    ("/api/accounts/prelogin", mkEndpointConfig "LOGIN_RATE_LIMITER" "ip") ].

(** [RATE_LIMITED_ENDPOINTS[pathname]].  A pathname always starts with "/",
    so no property inherited from [Object.prototype] can be hit: the lookup
    is an exact, case-sensitive match on the own keys. *)
Fixpoint lookup_endpoint (tbl : list (string * EndpointConfig)) (path : string)
  : option EndpointConfig :=
  match tbl with
  | [] => None
  | (p, cfg) :: rest => if String.eqb p path then Some cfg else lookup_endpoint rest path
  end.

(** The object [checkRateLimit] resolves to when it is not [null]. *)
Record Decision : Type := mkDecision {
  limited : bool;
  key : string;
  endpoint : string
}.

(** ** The worker *)

Section Worker.

Context {S : Type} (H : Host S).

(** [request.headers.get("content-type") || ""]. *)
Definition content_type (req : Request) : string :=
  match hdr_get (req_headers req) "content-type" with
  | Some v => v
  | None => ""
  end.

(** [request.headers.get("cf-connecting-ip") || "unknown"] prefixed with
    "ip:" (lines 67-68). *)
Definition ip_key (req : Request) : string :=
  let ip := match hdr_get (req_headers req) "cf-connecting-ip" with
            | Some v => if String.eqb v "" then "unknown" else v
            | None => "unknown"
            end in
  "ip:" ++ ip.

(** [email.toLowerCase()] on a truthy value: only strings have it, any
    other value raises a TypeError ([None]). *)
Definition js_toLowerCase (v : jsval) : option string :=
  match v with
  | JV (JStr s) => Some (toLowerCase H s)
  | _ => None
  end.

(** The [try] block of [extractRateLimitKey] (lines 44-60), with the body
    reads it performs.  [None]: an exception reached the [catch];
    [Some None]: the block finished without returning;
    [Some (Some k)]: it returned [k]. *)
Definition email_try (req : Request) : list Event * option (option string) :=
  let ct := content_type req in
  if includes ct "application/x-www-form-urlencoded" then
    ([BodyRead],
     match parse_form H (req_body req) with
     | None => None
     | Some formData =>
         match form_get formData "username" with
         | Some username =>
             if String.eqb username "" then Some None
             else Some (Some ("email:" ++ toLowerCase H username))
         | None => Some None
         end
     end)
  else if includes ct "application/json" then
    ([BodyRead],
     match parse_json H (req_body req) with
     | None => None
     | Some body =>
         match get_prop body "email" with
         | None => None
         | Some e1 =>
             let email := if truthy e1 then Some e1 else get_prop body "username" in
             match email with
             | None => None
             | Some email =>
                 if truthy email then
                   match js_toLowerCase email with
                   | Some s => Some (Some ("email:" ++ s))
                   | None => None
                   end
                 else Some None
             end
         end
     end)
  else ([], Some None).

Definition extract_warning : string := "Failed to extract email from request body:".

(** [extractRateLimitKey(request, keyType)] (lines 41-69). *)
Definition extractRateLimitKey (req : Request) (kt : string) : list Event * string :=
  let '(ev, r) :=
    if String.eqb kt "email" then
      let '(ev, r) := email_try req in
      match r with
      | None => ((ev ++ [Warn extract_warning])%list, None)
      | Some o => (ev, o)
      end
    else ([], None) in
  match r with
  | Some k => (ev, k)
  | None => (ev, ip_key req)
  end.

Definition missing_binding_warning (name : string) : string :=
  "Rate limiter binding '" ++ name ++ "' not found, skipping rate limit check".

Definition check_failed_error : string := "Rate limit check failed:".

(** [checkRateLimit(request, env)] (lines 77-111), run against the limiter
    service in state [s]. *)
Definition checkRateLimit (req : Request) (env : Env) (s : S)
  : option Decision * S * list Event :=
  let pathname := req_pathname req in
  match lookup_endpoint RATE_LIMITED_ENDPOINTS pathname with
  | None => (None, s, [])
  | Some endpointConfig =>
      if negb (env_bound env (limiter endpointConfig)) then
        (None, s, [Warn (missing_binding_warning (limiter endpointConfig))])
      else
        let '(ev, k) := extractRateLimitKey req (keyType endpointConfig) in
        let ev := (ev ++ [LimitCall (limiter endpointConfig) k])%list in
        match limit_svc H (limiter endpointConfig) k s with
        | (Reply success, s') =>
            (Some (mkDecision (negb success) k pathname), s', ev)
        | (Throws, s') => (None, s', (ev ++ [LogError check_failed_error])%list)
        end
  end.

(** The object [errorResponse] of [createRateLimitResponse]. *)
Definition errorResponse : json :=
  JObj [ ("error", JStr "too_many_requests");
         ("error_description", JStr "Too many requests. Please try again later.");
         ("ErrorModel", JObj [ ("Message", JStr "Too many requests. Please try again later.");
                               ("Object", JStr "error") ]) ].

(** [createRateLimitResponse(key, endpoint)] (lines 119-139). *)
Definition createRateLimitResponse (k ep : string) : list Event * Response :=
  ([Warn ("Rate limit exceeded for " ++ ep ++ ", key: " ++ k)],
   mkResponse 429 [("Content-Type", "application/json"); ("Retry-After", "60")]
              (stringify errorResponse)).

(** The [fetch] entry point (lines 152-166): a fresh backend instance is
    built from [env] and receives the original request. *)
Definition fetch (req : Request) (env : Env) (s : S) : Response * S * list Event :=
  let '(rateLimitResult, s', ev) := checkRateLimit req env s in
  match rateLimitResult with
  | Some d =>
      if limited d then
        let '(ev', resp) := createRateLimitResponse (key d) (endpoint d) in
        (resp, s', (ev ++ ev')%list)
      else (wasm_fetch H env req, s', ev)
  | None => (wasm_fetch H env req, s', ev)
  end.

(** The [scheduled] entry point (lines 168-172). *)
Definition scheduled (event : ScheduledEvent) (env : Env) (s : S)
  : Response * S * list Event :=
  (wasm_scheduled H env event, s, []).

(** Two requests served one after the other; the limiter service state is
    the only thing carried from the first to the second. *)
Definition fetch_two (r1 r2 : Request) (env : Env) (s : S)
  : (Response * list Event) * (Response * list Event) * S :=
  let '(resp1, s1, ev1) := fetch r1 env s in
  let '(resp2, s2, ev2) := fetch r2 env s1 in
  ((resp1, ev1), (resp2, ev2), s2).

End Worker.

(** ** Auxiliary definitions for the statements *)

(** The rejection body of the spec (section 6), written compactly as
    [JSON.stringify] emits it. *)
Definition spec_429_body : string :=
  let q x := dq ++ x ++ dq in
  "{" ++ q "error" ++ ":" ++ q "too_many_requests" ++ "," ++
  q "error_description" ++ ":" ++ q "Too many requests. Please try again later." ++ "," ++
  q "ErrorModel" ++ ":{" ++
  q "Message" ++ ":" ++ q "Too many requests. Please try again later." ++ "," ++
  q "Object" ++ ":" ++ q "error" ++ "}}".

(** The limiter calls recorded in a trace, as (binding name, key). *)
Fixpoint limit_calls (ev : list Event) : list (string * string) :=
  match ev with
  | [] => []
  | LimitCall n k :: rest => (n, k) :: limit_calls rest
  | _ :: rest => limit_calls rest
  end.

(** The number of body reads in a trace. *)
Fixpoint body_reads (ev : list Event) : nat :=
  match ev with
  | [] => 0
  | BodyRead :: rest => S (body_reads rest)
  | _ :: rest => body_reads rest
  end.

(** The same host with another JSON body parser. *)
Definition with_parse_json {S : Type} (H : Host S) (f : string -> option json) : Host S :=
  mkHost S (parse_form H) f (toLowerCase H) (limit_svc H) (wasm_fetch H) (wasm_scheduled H).

Definition FORM_TYPE : string := "application/x-www-form-urlencoded".
Definition JSON_TYPE : string := "application/json".

Section Extraction.

Context {S : Type} (H : Host S).

(** The ways the EMAIL strategy finds a value [v] to lower-case. *)
Inductive email_source (req : Request) : string -> Prop :=
| ES_form fd v :
    includes (content_type req) FORM_TYPE = true ->
    parse_form H (req_body req) = Some fd ->
    form_get fd "username" = Some v -> v <> "" ->
    email_source req v
| ES_json_email body v :
    includes (content_type req) FORM_TYPE = false ->
    includes (content_type req) JSON_TYPE = true ->
    parse_json H (req_body req) = Some body ->
    get_prop body "email" = Some (JV (JStr v)) -> v <> "" ->
    email_source req v
| ES_json_username body e v :
    includes (content_type req) FORM_TYPE = false ->
    includes (content_type req) JSON_TYPE = true ->
    parse_json H (req_body req) = Some body ->
    get_prop body "email" = Some e -> truthy e = false ->
    get_prop body "username" = Some (JV (JStr v)) -> v <> "" ->
    email_source req v.

End Extraction.

(** ** A test host *)

(** A host whose body parsers return fixed results, whose
    [toLowerCase] lower-cases ASCII, whose backend answers 200 with the
    path, and whose limiter is the given function over a call counter. *)
Definition stub_host (fd : option FormData) (js : option json)
  (lim : string -> string -> nat -> LimitReply) : Host nat :=
  mkHost nat (fun _ => fd) (fun _ => js) ascii_lower_string
    (fun name k n => (lim name k n, S n))
    (fun _ req => mkResponse 200 [] ("backend:" ++ req_pathname req))
    (fun _ ev => mkResponse 200 [] ("cron:" ++ ev_cron ev)).

(** A limiter that allows the first [max] calls and denies the others. *)
Definition counting_limiter (max : nat) : string -> string -> nat -> LimitReply :=
  fun _ _ n => Reply (n <? max)%nat.

(** A limiter binding whose call always throws. *)
Definition throwing_limiter : string -> string -> nat -> LimitReply :=
  fun _ _ _ => Throws.

Definition TOKEN_PATH : string := "/identity/connect/token".
Definition REGISTER_PATH : string := "/api/accounts/register".

(** Sample requests. *)
Definition register_req : Request :=
  mkRequest REGISTER_PATH [("cf-connecting-ip", "1.2.3.4")] "".

Definition login_json_req : Request :=
  mkRequest TOKEN_PATH [("Content-Type", "application/json"); ("cf-connecting-ip", "1.2.3.4")] "".

Definition login_form_req : Request :=
  mkRequest TOKEN_PATH [("Content-Type", "application/x-www-form-urlencoded");
                        ("cf-connecting-ip", "5.6.7.8")] "".

Definition login_text_req : Request :=
  mkRequest TOKEN_PATH [("Content-Type", "text/plain"); ("cf-connecting-ip", "1.2.3.4")] "".

Definition empty_ip_req : Request :=
  mkRequest REGISTER_PATH [("cf-connecting-ip", "")] "".

Definition REGISTER_CFG : EndpointConfig := mkEndpointConfig "LOGIN_RATE_LIMITER" "ip".

(** A host whose JSON view has [email] "User@Example.com" and whose form
    view has [username] "user@example.com". *)
Definition login_host (lim : string -> string -> nat -> LimitReply) : Host nat :=
  stub_host (Some [("username", "user@example.com")])
            (Some (JObj [("email", JStr "User@Example.com"); ("password", JStr "x")])) lim.

(** ** Tests *)

Example stringify_errorResponse : stringify errorResponse = spec_429_body.
Proof. vm_compute. reflexivity. Qed.

Example json_email_key :
  snd (extractRateLimitKey
         (stub_host None (Some (JObj [("email", JStr "User@Example.com"); ("password", JStr "x")]))
                    (counting_limiter 5))
         (mkRequest TOKEN_PATH [("Content-Type", "application/json")] "") "email")
  = "email:user@example.com".
Proof. vm_compute. reflexivity. Qed.

Example form_username_key :
  snd (extractRateLimitKey
         (stub_host (Some [("username", "User@Example.com")]) None (counting_limiter 5))
         (mkRequest TOKEN_PATH [("content-type", "application/x-www-form-urlencoded")] "")
         "email")
  = "email:user@example.com".
Proof. vm_compute. reflexivity. Qed.

Example register_no_binding :
  checkRateLimit (stub_host None None (counting_limiter 5))
    (mkRequest REGISTER_PATH [("cf-connecting-ip", "1.2.3.4")] "") [] 0
  = (None, 0, [Warn (missing_binding_warning "LOGIN_RATE_LIMITER")]).
Proof. vm_compute. reflexivity. Qed.

Example third_call_denied :
  fst (fst (fetch (stub_host None None (counting_limiter 2))
                  (mkRequest REGISTER_PATH [("cf-connecting-ip", "1.2.3.4")] "")
                  ["LOGIN_RATE_LIMITER"] 2))
  = mkResponse 429 [("Content-Type", "application/json"); ("Retry-After", "60")] spec_429_body.
Proof. vm_compute. reflexivity. Qed.

(** ** Properties *)

(** Case analysis on the innermost [match] or [if] of the goal, repeated. *)
Ltac split_matches :=
  repeat (simpl; match goal with
    | |- context [match ?x with _ => _ end] =>
        lazymatch x with
        | context [match _ with _ => _ end] => fail
        | _ => destruct x
        end
    end).

Section Properties.

Context {S : Type} (H : Host S).

Lemma ip_strategy_key (req : Request) (kt : string) :
  String.eqb kt "email" = false ->
  extractRateLimitKey H req kt = ([], ip_key req).
Proof. intros E. unfold extractRateLimitKey. rewrite E. reflexivity. Qed.

Lemma extract_no_limit_calls (req : Request) (kt : string) :
  limit_calls (fst (extractRateLimitKey H req kt)) = [].
Proof.
  unfold extractRateLimitKey, email_try.
  split_matches; reflexivity.
Qed.

(** The outcome of [fetch] is a function of the request, the bindings and
    the limiter's reply: two limiter states giving the same reply to the
    same call give the same response and the same trace. *)
Lemma fetch_depends_only_on_reply (req : Request) (env : Env) (t t' : S) :
  (forall cfg, lookup_endpoint RATE_LIMITED_ENDPOINTS (req_pathname req) = Some cfg ->
     fst (limit_svc H (limiter cfg) (snd (extractRateLimitKey H req (keyType cfg))) t) =
     fst (limit_svc H (limiter cfg) (snd (extractRateLimitKey H req (keyType cfg))) t')) ->
  fst (fst (fetch H req env t)) = fst (fst (fetch H req env t')) /\
  snd (fetch H req env t) = snd (fetch H req env t').
Proof.
  intros Hrep. unfold fetch, checkRateLimit.
  destruct (lookup_endpoint RATE_LIMITED_ENDPOINTS (req_pathname req)) as [cfg|] eqn:L;
    [|split; reflexivity].
  destruct (negb (env_bound env (limiter cfg))); [split; reflexivity|].
  specialize (Hrep cfg eq_refl).
  destruct (extractRateLimitKey H req (keyType cfg)) as [ev k]. simpl in Hrep.
  destruct (limit_svc H (limiter cfg) k t) as [r1 u1].
  destruct (limit_svc H (limiter cfg) k t') as [r2 u2].
  simpl in Hrep. subst r2.
  destruct r1 as [b|]; [|split; reflexivity].
  destruct (negb b); split; reflexivity.
Qed.

(** C1: when the matched path's binding exists and the limiter answers
    [{success: false}], the decision is [limited: true] with the derived key
    and the path, and [fetch] answers 429 with [Retry-After: 60],
    [Content-Type: application/json] and the exact body of section 6. *)
Theorem fetch_limited_returns_429 (req : Request) (env : Env) (s s' : S)
  (cfg : EndpointConfig) (k : string) :
  lookup_endpoint RATE_LIMITED_ENDPOINTS (req_pathname req) = Some cfg ->
  env_bound env (limiter cfg) = true ->
  snd (extractRateLimitKey H req (keyType cfg)) = k ->
  limit_svc H (limiter cfg) k s = (Reply false, s') ->
  fst (fst (checkRateLimit H req env s)) = Some (mkDecision true k (req_pathname req)) /\
  resp_status (fst (fst (fetch H req env s))) = 429%Z /\
  hdr_get (resp_headers (fst (fst (fetch H req env s)))) "Retry-After" = Some "60" /\
  hdr_get (resp_headers (fst (fst (fetch H req env s)))) "Content-Type" = Some "application/json" /\
  resp_body (fst (fst (fetch H req env s))) = spec_429_body.
Proof.
  intros L B K R. unfold fetch, checkRateLimit. rewrite L, B. simpl negb.
  destruct (extractRateLimitKey H req (keyType cfg)) as [ev k0]. simpl in K. subst k0.
  rewrite R. simpl.
  repeat split; reflexivity.
Qed.

(** C2 (amended): when the path is in the table but its limiter binding is
    absent, [checkRateLimit] resolves to [null] (no decision object), logs
    one warning naming the binding, and [fetch] forwards the request to the
    backend. *)
Theorem missing_binding_fails_open (req : Request) (env : Env) (s : S)
  (cfg : EndpointConfig) :
  lookup_endpoint RATE_LIMITED_ENDPOINTS (req_pathname req) = Some cfg ->
  env_bound env (limiter cfg) = false ->
  checkRateLimit H req env s = (None, s, [Warn (missing_binding_warning (limiter cfg))]) /\
  fetch H req env s = (wasm_fetch H env req, s, [Warn (missing_binding_warning (limiter cfg))]).
Proof.
  intros L B.
  assert (C : checkRateLimit H req env s =
              (None, s, [Warn (missing_binding_warning (limiter cfg))])).
  { unfold checkRateLimit. rewrite L, B. reflexivity. }
  split; [exact C|]. unfold fetch. rewrite C. reflexivity.
Qed.

(** When the EMAIL strategy finds no value (no [email_source]), the key
    is the IP key: another content-type, a parse failure, an absent, empty
    or falsy field, a [null] body, or a value without [toLowerCase]. *)
Lemma no_email_source_ip_key (req : Request) :
  (forall v, ~ email_source H req v) ->
  snd (extractRateLimitKey H req "email") = ip_key req.
Proof.
  intros Hn. unfold extractRateLimitKey, email_try. simpl (String.eqb "email" "email").
  cbv iota beta.
  destruct (includes (content_type req) "application/x-www-form-urlencoded") eqn:CF.
  - destruct (parse_form H (req_body req)) as [fd|] eqn:P; [|reflexivity].
    destruct (form_get fd "username") as [u|] eqn:G; [|reflexivity].
    destruct (String.eqb u "") eqn:E; [reflexivity|].
    exfalso. apply (Hn u). apply (ES_form H req fd u); auto.
    apply String.eqb_neq. exact E.
  - destruct (includes (content_type req) "application/json") eqn:CJ; [|reflexivity].
    destruct (parse_json H (req_body req)) as [body|] eqn:P; [|reflexivity].
    destruct (get_prop body "email") as [e1|] eqn:G1; [|reflexivity].
    destruct (truthy e1) eqn:T1.
    + rewrite T1.
      destruct (js_toLowerCase H e1) eqn:L; [|reflexivity].
      exfalso. destruct e1 as [|[| | | v | |]]; try discriminate L.
      apply (Hn v). apply (ES_json_email H req body v); auto.
      apply String.eqb_neq. simpl in T1. destruct (String.eqb v ""); [discriminate|reflexivity].
    + destruct (get_prop body "username") as [e2|] eqn:G2; [|reflexivity].
      destruct (truthy e2) eqn:T2; [|reflexivity].
      destruct (js_toLowerCase H e2) eqn:L; [|reflexivity].
      exfalso. destruct e2 as [|[| | | v | |]]; try discriminate L.
      apply (Hn v). apply (ES_json_username H req body e1 v); auto.
      apply String.eqb_neq. simpl in T2. destruct (String.eqb v ""); [discriminate|reflexivity].
Qed.

(** C3 (amended): under the EMAIL strategy the key is "email:" followed by
    the lower-cased value found by [email_source]: the non-empty form field
    [username] for a form-encoded body; for a JSON body (and no form type)
    the non-empty string [email], or the non-empty string [username] when
    [email] is absent or falsy.  When no such value exists (in particular an
    empty form [username], or a falsy [email] with no non-empty string
    [username]) the key is the IP key. *)
Theorem email_strategy_key (req : Request) :
  (forall v, email_source H req v ->
     snd (extractRateLimitKey H req "email") = "email:" ++ toLowerCase H v) /\
  ((forall v, ~ email_source H req v) ->
     snd (extractRateLimitKey H req "email") = ip_key req).
Proof.
  split; [|apply no_email_source_ip_key].
  intros v Hs. unfold extractRateLimitKey, email_try. simpl (String.eqb "email" "email").
  cbv iota beta.
  destruct Hs as [fd v CT P G NE | body v CF CJ P G NE | body e v CF CJ P G T GU NE];
    unfold FORM_TYPE, JSON_TYPE in *; apply String.eqb_neq in NE.
  - rewrite CT, P, G, NE. reflexivity.
  - rewrite CF, CJ, P, G. simpl. rewrite NE. simpl. rewrite NE. reflexivity.
  - rewrite CF, CJ, P, G, T, GU. simpl. rewrite NE. reflexivity.
Qed.

(** C4: whenever the EMAIL strategy extracts no value (another
    content-type, a parse failure, a missing, empty or falsy field, or an
    exception while reading the body), the key is the one of the IP
    strategy. *)
Theorem email_failure_falls_back_to_ip (req : Request) :
  (forall v, ~ email_source H req v) ->
  snd (extractRateLimitKey H req "email") = snd (extractRateLimitKey H req "ip").
Proof.
  intros Hn. rewrite (ip_strategy_key req "ip") by reflexivity.
  exact (no_email_source_ip_key req Hn).
Qed.

(** C5: when the limiter call throws, [fetch] forwards the request to the
    backend and returns its response, after logging the error. *)
Theorem limiter_throw_fails_open (req : Request) (env : Env) (s s' : S)
  (cfg : EndpointConfig) (k : string) :
  lookup_endpoint RATE_LIMITED_ENDPOINTS (req_pathname req) = Some cfg ->
  env_bound env (limiter cfg) = true ->
  snd (extractRateLimitKey H req (keyType cfg)) = k ->
  limit_svc H (limiter cfg) k s = (Throws, s') ->
  fst (fetch H req env s) = (wasm_fetch H env req, s') /\
  In (LogError check_failed_error) (snd (fetch H req env s)).
Proof.
  intros L B K R. unfold fetch, checkRateLimit. rewrite L, B. simpl negb.
  destruct (extractRateLimitKey H req (keyType cfg)) as [ev k0]. simpl in K. subst k0.
  rewrite R. simpl. split; [reflexivity|].
  rewrite <- app_assoc. apply in_or_app. right. simpl. auto.
Qed.

Lemma lookup_endpoint_not_key (tbl : list (string * EndpointConfig)) (path : string) :
  ~ In path (map fst tbl) -> lookup_endpoint tbl path = None.
Proof.
  induction tbl as [|[p cfg] rest IH]; intros NI; [reflexivity|].
  simpl in *. destruct (String.eqb p path) eqn:E.
  - apply String.eqb_eq in E. subst. exfalso. apply NI. now left.
  - apply IH. intros Hin. apply NI. now right.
Qed.

(** C6: for a pathname that is not a key of the policy table,
    [checkRateLimit] resolves to [null] with no body read, no limiter call,
    no log and the limiter state untouched, and [fetch] hands the original
    request to the backend. *)
Theorem unmatched_path_bypasses (req : Request) (env : Env) (s : S) :
  ~ In (req_pathname req) (map fst RATE_LIMITED_ENDPOINTS) ->
  checkRateLimit H req env s = (None, s, []) /\
  fetch H req env s = (wasm_fetch H env req, s, []).
Proof.
  intros NI. apply lookup_endpoint_not_key in NI.
  assert (C : checkRateLimit H req env s = (None, s, [])).
  { unfold checkRateLimit. rewrite NI. reflexivity. }
  split; [exact C|]. unfold fetch. rewrite C. reflexivity.
Qed.

Lemma extract_key_cases (req : Request) (kt : string) :
  snd (extractRateLimitKey H req kt) = ip_key req \/
  exists v, snd (extractRateLimitKey H req kt) = "email:" ++ v.
Proof.
  unfold extractRateLimitKey, email_try.
  split_matches; first [left; reflexivity | right; eexists; reflexivity].
Qed.

(** C7 (amended): every key is non-empty and starts with "email:" or
    "ip:"; under any strategy other than "email" it is "ip:" followed by
    the cf-connecting-ip value when that value is non-empty, and exactly
    "ip:unknown" when the header is absent or empty. *)
Theorem rate_limit_key_shape (req : Request) (kt : string) :
  snd (extractRateLimitKey H req kt) <> "" /\
  (exists v, snd (extractRateLimitKey H req kt) = "email:" ++ v \/
             snd (extractRateLimitKey H req kt) = "ip:" ++ v) /\
  (String.eqb kt "email" = false ->
     (forall v, hdr_get (req_headers req) "cf-connecting-ip" = Some v -> v <> "" ->
        snd (extractRateLimitKey H req kt) = "ip:" ++ v) /\
     (hdr_get (req_headers req) "cf-connecting-ip" = None \/
      hdr_get (req_headers req) "cf-connecting-ip" = Some "" ->
        snd (extractRateLimitKey H req kt) = "ip:unknown")).
Proof.
  assert (Shape : exists v, snd (extractRateLimitKey H req kt) = "email:" ++ v \/
                            snd (extractRateLimitKey H req kt) = "ip:" ++ v).
  { destruct (extract_key_cases req kt) as [E | [v E]].
    - rewrite E. unfold ip_key. eexists. right. reflexivity.
    - exists v. left. exact E. }
  split; [|split; [exact Shape|]].
  - destruct Shape as [v [E | E]]; rewrite E; discriminate.
  - intros Kt. rewrite (ip_strategy_key req kt Kt). simpl. unfold ip_key. split.
    + intros v G NE. rewrite G. apply String.eqb_neq in NE. rewrite NE. reflexivity.
    + intros [G | G]; rewrite G; reflexivity.
Qed.

(** C8: a scheduled event goes straight to the backend's scheduled entry
    point: no policy lookup, no key extraction, no limiter call, no log,
    and the limiter state is untouched. *)
Theorem scheduled_passthrough (event : ScheduledEvent) (env : Env) (s : S) :
  scheduled H event env s = (wasm_scheduled H env event, s, []).
Proof. reflexivity. Qed.

Lemma limit_calls_app (l1 l2 : list Event) :
  limit_calls (l1 ++ l2) = (limit_calls l1 ++ limit_calls l2)%list.
Proof.
  induction l1 as [|e rest IH]; [reflexivity|].
  destruct e; simpl; rewrite ?IH; reflexivity.
Qed.

(** On a table path with its binding present, [fetch] calls the limiter
    exactly once, with the extracted key. *)
Lemma fetch_one_limit_call (req : Request) (env : Env) (s : S) (cfg : EndpointConfig) :
  lookup_endpoint RATE_LIMITED_ENDPOINTS (req_pathname req) = Some cfg ->
  env_bound env (limiter cfg) = true ->
  limit_calls (snd (fetch H req env s)) =
  [(limiter cfg, snd (extractRateLimitKey H req (keyType cfg)))].
Proof.
  intros L B.
  pose proof (extract_no_limit_calls req (keyType cfg)) as NoCall.
  unfold fetch, checkRateLimit. rewrite L, B. simpl negb. cbv iota beta.
  destruct (extractRateLimitKey H req (keyType cfg)) as [ev k]. simpl in NoCall |- *.
  destruct (limit_svc H (limiter cfg) k s) as [[b|] s'].
  - destruct (negb b); simpl; rewrite ?limit_calls_app, NoCall; reflexivity.
  - simpl. rewrite !limit_calls_app, NoCall. reflexivity.
Qed.

(** C9: two requests to the login endpoint carrying the same email-derived
    key, served one after the other, each make their own limiter call with
    that key; and each response and trace depends only on its request, the
    bindings and the limiter's reply, not on anything the worker kept. *)
Theorem same_email_key_two_limiter_calls (r1 r2 : Request) (env : Env) (s : S)
  (k : string) :
  req_pathname r1 = TOKEN_PATH ->
  req_pathname r2 = TOKEN_PATH ->
  env_bound env "LOGIN_RATE_LIMITER" = true ->
  snd (extractRateLimitKey H r1 "email") = k ->
  snd (extractRateLimitKey H r2 "email") = k ->
  (let '((_, ev1), (_, ev2), _) := fetch_two H r1 r2 env s in
   limit_calls ev1 = [("LOGIN_RATE_LIMITER", k)] /\
   limit_calls ev2 = [("LOGIN_RATE_LIMITER", k)]) /\
  (forall r t t', (r = r1 \/ r = r2) ->
     fst (limit_svc H "LOGIN_RATE_LIMITER" k t) = fst (limit_svc H "LOGIN_RATE_LIMITER" k t') ->
     fst (fst (fetch H r env t)) = fst (fst (fetch H r env t')) /\
     snd (fetch H r env t) = snd (fetch H r env t')).
Proof.
  intros P1 P2 B K1 K2.
  assert (L1 : lookup_endpoint RATE_LIMITED_ENDPOINTS (req_pathname r1) =
               Some (mkEndpointConfig "LOGIN_RATE_LIMITER" "email")) by (rewrite P1; reflexivity).
  assert (L2 : lookup_endpoint RATE_LIMITED_ENDPOINTS (req_pathname r2) =
               Some (mkEndpointConfig "LOGIN_RATE_LIMITER" "email")) by (rewrite P2; reflexivity).
  split.
  - unfold fetch_two.
    pose proof (fetch_one_limit_call r1 env s _ L1 B) as C1. simpl in C1.
    destruct (fetch H r1 env s) as [[resp1 s1] ev1]. simpl in C1.
    pose proof (fetch_one_limit_call r2 env s1 _ L2 B) as C2. simpl in C2.
    destruct (fetch H r2 env s1) as [[resp2 s2] ev2]. simpl in C2.
    rewrite K1 in C1. rewrite K2 in C2. split; assumption.
  - intros r t t' [-> | ->] Rep; apply fetch_depends_only_on_reply;
      intros cfg L; [rewrite L1 in L | rewrite L2 in L]; injection L as <-; simpl;
      [rewrite K1 | rewrite K2]; exact Rep.
Qed.

(** C10: when the path is in the table but its binding is absent,
    [checkRateLimit] returns before extracting a key: the body is not read,
    the limiter is not called, and the outcome does not depend on the
    request's headers or body at all. *)
Theorem missing_binding_skips_extraction (req : Request) (env : Env) (s : S)
  (cfg : EndpointConfig) :
  lookup_endpoint RATE_LIMITED_ENDPOINTS (req_pathname req) = Some cfg ->
  env_bound env (limiter cfg) = false ->
  ~ In BodyRead (snd (checkRateLimit H req env s)) /\
  limit_calls (snd (checkRateLimit H req env s)) = [] /\
  (forall req', req_pathname req' = req_pathname req ->
     checkRateLimit H req' env s = checkRateLimit H req env s).
Proof.
  intros L B.
  assert (C : forall r, req_pathname r = req_pathname req ->
              checkRateLimit H r env s =
              (None, s, [Warn (missing_binding_warning (limiter cfg))])).
  { intros r P. unfold checkRateLimit. rewrite P, L, B. reflexivity. }
  rewrite (C req eq_refl). simpl. split; [|split].
  - intros [E | []]. discriminate.
  - reflexivity.
  - intros r' P. rewrite (C r' P). reflexivity.
Qed.

End Properties.

(** ** Further properties of the worker *)

Section Extras.

Context {S : Type} (H : Host S).

Lemma extract_body_read_email (req : Request) (kt : string) :
  In BodyRead (fst (extractRateLimitKey H req kt)) -> String.eqb kt "email" = true.
Proof.
  unfold extractRateLimitKey. destruct (String.eqb kt "email"); [reflexivity|].
  simpl. intros [].
Qed.

Lemma lookup_email_is_token (p : string) (cfg : EndpointConfig) :
  lookup_endpoint RATE_LIMITED_ENDPOINTS p = Some cfg -> keyType cfg = "email" ->
  p = TOKEN_PATH.
Proof.
  unfold RATE_LIMITED_ENDPOINTS. cbn [lookup_endpoint].
  destruct (String.eqb "/identity/connect/token" p) eqn:E1.
  - intros _ _. apply String.eqb_eq in E1. now subst.
  - destruct (String.eqb "/api/accounts/register" p); [intros L; injection L as <-; discriminate|].
    destruct (String.eqb "/api/accounts/prelogin" p); [intros L; injection L as <-; discriminate|].
    discriminate.
Qed.

Lemma extract_body_reads_le1 (req : Request) (kt : string) :
  body_reads (fst (extractRateLimitKey H req kt)) <= 1.
Proof.
  unfold extractRateLimitKey, email_try. split_matches; simpl; auto.
Qed.

Lemma body_reads_app (l1 l2 : list Event) :
  body_reads (l1 ++ l2) = body_reads l1 + body_reads l2.
Proof.
  induction l1 as [|e rest IH]; [reflexivity|]. destruct e; simpl; rewrite ?IH; reflexivity.
Qed.

Lemma body_reads_in (l : list Event) : In BodyRead l -> 0 < body_reads l.
Proof.
  induction l as [|e rest IH]; [intros []|].
  intros [E | Hin]; [subst; simpl; lia|]. destruct e; simpl; auto with arith.
Qed.

(** [fetch] answers in exactly two ways: the backend's response to the
    original request, or the fixed 429 response, and the latter only when
    the path is in the table, its binding exists and the limiter replied
    [success: false] to the extracted key. *)
Theorem fetch_response_cases (req : Request) (env : Env) (s : S) :
  fst (fst (fetch H req env s)) = wasm_fetch H env req \/
  exists cfg,
    lookup_endpoint RATE_LIMITED_ENDPOINTS (req_pathname req) = Some cfg /\
    env_bound env (limiter cfg) = true /\
    fst (limit_svc H (limiter cfg) (snd (extractRateLimitKey H req (keyType cfg))) s) = Reply false /\
    fst (fst (fetch H req env s)) =
      mkResponse 429 [("Content-Type", "application/json"); ("Retry-After", "60")] spec_429_body.
Proof.
  unfold fetch, checkRateLimit.
  destruct (lookup_endpoint RATE_LIMITED_ENDPOINTS (req_pathname req)) as [cfg|] eqn:L;
    [|left; reflexivity].
  destruct (env_bound env (limiter cfg)) eqn:B; [|left; reflexivity]. simpl negb.
  cbv iota beta.
  destruct (extractRateLimitKey H req (keyType cfg)) as [ev k] eqn:E.
  destruct (limit_svc H (limiter cfg) k s) as [[b|] s'] eqn:R; [|left; reflexivity].
  destruct b; [left; reflexivity|].
  right. exists cfg. split; [reflexivity|]. split; [exact B|]. split.
  - rewrite E. simpl. rewrite R. reflexivity.
  - reflexivity.
Qed.

(** Every [fetch] calls the limiter at most once: either there is no call
    and the limiter state is untouched, or exactly one call and the state is
    the one that call left. *)
Theorem fetch_limiter_at_most_once (req : Request) (env : Env) (s : S) :
  (limit_calls (snd (fetch H req env s)) = [] /\ snd (fst (fetch H req env s)) = s) \/
  (exists name k, limit_calls (snd (fetch H req env s)) = [(name, k)] /\
                  snd (fst (fetch H req env s)) = snd (limit_svc H name k s)).
Proof.
  unfold fetch, checkRateLimit.
  destruct (lookup_endpoint RATE_LIMITED_ENDPOINTS (req_pathname req)) as [cfg|];
    [|left; split; reflexivity].
  destruct (env_bound env (limiter cfg)); [|left; split; reflexivity]. simpl negb.
  cbv iota beta.
  pose proof (extract_no_limit_calls H req (keyType cfg)) as NoCall.
  destruct (extractRateLimitKey H req (keyType cfg)) as [ev k]. simpl in NoCall.
  right. exists (limiter cfg), k.
  destruct (limit_svc H (limiter cfg) k s) as [[b|] s'] eqn:R.
  - simpl. destruct (negb b); simpl; rewrite ?limit_calls_app, NoCall; split; reflexivity.
  - simpl. rewrite !limit_calls_app, NoCall. split; reflexivity.
Qed.

(** Key extraction reads the body at most once, and reads it exactly when
    the strategy is "email" and the content-type names the form or the JSON
    encoding. *)
Theorem extract_body_read_iff (req : Request) (kt : string) :
  body_reads (fst (extractRateLimitKey H req kt)) <= 1 /\
  (In BodyRead (fst (extractRateLimitKey H req kt)) <->
   String.eqb kt "email" = true /\
   (includes (content_type req) FORM_TYPE || includes (content_type req) JSON_TYPE) = true).
Proof.
  unfold extractRateLimitKey, email_try, FORM_TYPE, JSON_TYPE.
  destruct (String.eqb kt "email");
    [|simpl; split; [auto | split; [intros [] | intros [E _]; discriminate]]].
  destruct (includes (content_type req) "application/x-www-form-urlencoded");
    [|destruct (includes (content_type req) "application/json")];
    split_matches; simpl; split; try auto; split; intros; firstorder congruence.
Qed.

(** When the content-type names the form encoding, extraction never looks
    at the JSON parser: the result is the same whatever it returns, even if
    the content-type also names JSON. *)
Theorem form_type_takes_precedence (req : Request) (f : string -> option json) :
  includes (content_type req) FORM_TYPE = true ->
  extractRateLimitKey (with_parse_json H f) req "email" = extractRateLimitKey H req "email".
Proof.
  unfold FORM_TYPE. intros CF.
  unfold extractRateLimitKey, email_try. simpl (String.eqb "email" "email"). cbv iota beta.
  rewrite CF. reflexivity.
Qed.

(** The extraction warning is logged only under the "email" strategy, and
    whenever it is logged the key is the IP key. *)
Theorem extract_warning_implies_ip_key (req : Request) (kt : string) :
  In (Warn extract_warning) (fst (extractRateLimitKey H req kt)) ->
  String.eqb kt "email" = true /\ snd (extractRateLimitKey H req kt) = ip_key req.
Proof.
  unfold extractRateLimitKey, email_try.
  destruct (String.eqb kt "email"); [|simpl; intros []].
  split_matches; simpl; intuition discriminate.
Qed.

(** A JSON body whose [email] field is truthy but not a string (a number,
    [true], an array or an object) gets the IP key with a warning, even when
    [username] holds a usable string: [email.toLowerCase()] throws. *)
Theorem json_non_string_email_falls_back (req : Request) (body : json) (e : jsval) :
  includes (content_type req) FORM_TYPE = false ->
  includes (content_type req) JSON_TYPE = true ->
  parse_json H (req_body req) = Some body ->
  get_prop body "email" = Some e ->
  truthy e = true ->
  (forall str, e <> JV (JStr str)) ->
  extractRateLimitKey H req "email" = ([BodyRead; Warn extract_warning], ip_key req).
Proof.
  unfold FORM_TYPE, JSON_TYPE. intros CF CJ P G T NS.
  unfold extractRateLimitKey, email_try. simpl (String.eqb "email" "email"). cbv iota beta.
  rewrite CF, CJ, P, G. simpl. rewrite T.
  assert (L : js_toLowerCase H e = None).
  { destruct e as [|[]]; try reflexivity. exfalso. eapply NS. reflexivity. }
  rewrite L, T. reflexivity.
Qed.

(** A decision object carries the request's pathname and the key that was
    sent to the limiter, and its [limited] flag is the negation of the
    limiter's reply; the limiter state after the check is the one the call
    left. *)
Theorem decision_reflects_reply (req : Request) (env : Env) (s : S) (d : Decision) :
  fst (fst (checkRateLimit H req env s)) = Some d ->
  endpoint d = req_pathname req /\
  exists cfg,
    lookup_endpoint RATE_LIMITED_ENDPOINTS (req_pathname req) = Some cfg /\
    env_bound env (limiter cfg) = true /\
    key d = snd (extractRateLimitKey H req (keyType cfg)) /\
    limit_svc H (limiter cfg) (key d) s =
      (Reply (negb (limited d)), snd (fst (checkRateLimit H req env s))).
Proof.
  unfold checkRateLimit.
  destruct (lookup_endpoint RATE_LIMITED_ENDPOINTS (req_pathname req)) as [cfg|] eqn:L;
    [|discriminate].
  destruct (env_bound env (limiter cfg)) eqn:B; [|discriminate]. simpl negb.
  cbv iota beta.
  destruct (extractRateLimitKey H req (keyType cfg)) as [ev k] eqn:E.
  destruct (limit_svc H (limiter cfg) k s) as [[b|] s'] eqn:R; [|discriminate].
  simpl. intros [= <-]. simpl. split; [reflexivity|].
  exists cfg. rewrite E, negb_involutive. repeat split; assumption.
Qed.

(** When the limiter replies [success: true], [fetch] forwards the
    original request to the backend and keeps the limiter state the call
    left. *)
Theorem allowed_request_forwarded (req : Request) (env : Env) (s s' : S)
  (cfg : EndpointConfig) :
  lookup_endpoint RATE_LIMITED_ENDPOINTS (req_pathname req) = Some cfg ->
  env_bound env (limiter cfg) = true ->
  limit_svc H (limiter cfg) (snd (extractRateLimitKey H req (keyType cfg))) s = (Reply true, s') ->
  fst (fetch H req env s) = (wasm_fetch H env req, s').
Proof.
  intros L B R. unfold fetch, checkRateLimit. rewrite L, B. simpl negb. cbv iota beta.
  destruct (extractRateLimitKey H req (keyType cfg)) as [ev k]. simpl in R.
  rewrite R. reflexivity.
Qed.

(** [fetch] reads the request body at most once, and only for the login
    path with its limiter binding present. *)
Theorem fetch_body_read_only_on_login (req : Request) (env : Env) (s : S) :
  body_reads (snd (fetch H req env s)) <= 1 /\
  (In BodyRead (snd (fetch H req env s)) ->
   req_pathname req = TOKEN_PATH /\ env_bound env "LOGIN_RATE_LIMITER" = true).
Proof.
  unfold fetch, checkRateLimit.
  destruct (lookup_endpoint RATE_LIMITED_ENDPOINTS (req_pathname req)) as [cfg|] eqn:L;
    [|simpl; split; [auto | intros []]].
  destruct (env_bound env (limiter cfg)) eqn:B;
    [|simpl; split; [auto | intros [E | []]; discriminate]].
  simpl negb. cbv iota beta.
  pose proof (extract_body_read_email req (keyType cfg)) as BR.
  pose proof (extract_body_reads_le1 req (keyType cfg)) as LE.
  destruct (extractRateLimitKey H req (keyType cfg)) as [ev k]. simpl in BR, LE.
  assert (Tail : forall tl, body_reads tl = 0 ->
            body_reads (ev ++ tl) <= 1 /\
            (In BodyRead (ev ++ tl) -> req_pathname req = TOKEN_PATH /\
                                       env_bound env "LOGIN_RATE_LIMITER" = true)).
  { intros tl Z. rewrite body_reads_app, Z. split; [lia|].
    intros Hin. apply in_app_or in Hin. destruct Hin as [Hin | Hin].
    - apply BR, String.eqb_eq in Hin.
      pose proof (lookup_email_is_token _ _ L Hin) as P. split; [exact P|].
      rewrite P in L. injection L as <-. exact B.
    - exfalso. apply body_reads_in in Hin. lia. }
  destruct (limit_svc H (limiter cfg) k s) as [[b|] s'].
  - simpl. destruct (negb b); simpl; rewrite <- ?app_assoc; apply Tail; reflexivity.
  - simpl. rewrite <- app_assoc. apply Tail. reflexivity.
Qed.

End Extras.

(** ** Instances at concrete inputs *)

Lemma fetch_limited_returns_429_witness :
  resp_status (fst (fst (fetch (stub_host None None (counting_limiter 0))
                               register_req ["LOGIN_RATE_LIMITER"] 0))) = 429%Z.
Proof.
  apply (fetch_limited_returns_429 (stub_host None None (counting_limiter 0))
           register_req ["LOGIN_RATE_LIMITER"] 0 1 REGISTER_CFG "ip:1.2.3.4");
    reflexivity.
Defined.

(** C2 fails as stated: for the spec's own example the check yields no
    decision object at all, so none with [limited: false]. *)
Lemma register_missing_binding_no_decision :
  ~ exists d, fst (fst (checkRateLimit (stub_host None None (counting_limiter 5))
                                       register_req [] 0)) = Some d /\ limited d = false.
Proof. intros [d [E _]]. vm_compute in E. discriminate. Qed.

Lemma missing_binding_fails_open_witness :
  fetch (stub_host None None (counting_limiter 5)) register_req [] 0 =
  (mkResponse 200 [] ("backend:" ++ REGISTER_PATH), 0,
   [Warn (missing_binding_warning "LOGIN_RATE_LIMITER")]).
Proof.
  apply (missing_binding_fails_open (stub_host None None (counting_limiter 5))
           register_req [] 0 REGISTER_CFG); reflexivity.
Defined.

(** C3 fails as stated: a form-encoded body whose [username] is empty gets
    the IP key, not "email:". *)
Lemma form_empty_username_gets_ip_key :
  snd (extractRateLimitKey (stub_host (Some [("username", "")]) None (counting_limiter 5))
                           login_form_req "email") = "ip:5.6.7.8" /\
  snd (extractRateLimitKey (stub_host (Some [("username", "")]) None (counting_limiter 5))
                           login_form_req "email") <> "email:" ++ ascii_lower_string "".
Proof. split; vm_compute; [reflexivity | discriminate]. Qed.

Lemma email_strategy_key_witness :
  snd (extractRateLimitKey (login_host (counting_limiter 5)) login_json_req "email") =
  "email:" ++ toLowerCase (login_host (counting_limiter 5)) "User@Example.com" /\
  snd (extractRateLimitKey (stub_host (Some [("username", "")]) None (counting_limiter 5))
                           login_form_req "email") = ip_key login_form_req.
Proof.
  split.
  - apply (proj1 (email_strategy_key (login_host (counting_limiter 5)) login_json_req)).
    eapply ES_json_email; [reflexivity | reflexivity | reflexivity | reflexivity | discriminate].
  - apply (proj2 (email_strategy_key (stub_host (Some [("username", "")]) None
                                                (counting_limiter 5)) login_form_req)).
    intros v Hs. destruct Hs as [fd v' CT P G NE | body v' CF | body e v' CF];
      [| vm_compute in CF; discriminate ..].
    vm_compute in P. injection P as <-. vm_compute in G. injection G as <-.
    apply NE; reflexivity.
Defined.

Lemma email_failure_falls_back_to_ip_witness :
  snd (extractRateLimitKey (login_host (counting_limiter 5)) login_text_req "email") =
  snd (extractRateLimitKey (login_host (counting_limiter 5)) login_text_req "ip").
Proof.
  apply email_failure_falls_back_to_ip.
  intros v Hs. destruct Hs as [fd v' CT | body v' CF CJ | body e v' CF CJ];
    vm_compute in *; discriminate.
Defined.

Lemma limiter_throw_fails_open_witness :
  fst (fetch (stub_host None None throwing_limiter) register_req ["LOGIN_RATE_LIMITER"] 0) =
  (mkResponse 200 [] ("backend:" ++ REGISTER_PATH), 1).
Proof.
  apply (limiter_throw_fails_open (stub_host None None throwing_limiter)
           register_req ["LOGIN_RATE_LIMITER"] 0 1 REGISTER_CFG "ip:1.2.3.4");
    reflexivity.
Defined.

Lemma unmatched_path_bypasses_witness :
  fetch (stub_host None None (counting_limiter 0))
        (mkRequest "/Identity/connect/token" [] "") ["LOGIN_RATE_LIMITER"] 0 =
  (mkResponse 200 [] "backend:/Identity/connect/token", 0, []).
Proof.
  apply (unmatched_path_bypasses (stub_host None None (counting_limiter 0))
           (mkRequest "/Identity/connect/token" [] "") ["LOGIN_RATE_LIMITER"] 0).
  simpl. intros [E | [E | [E | []]]]; discriminate.
Defined.

(** C7 fails as stated: a present but empty cf-connecting-ip header gives
    "ip:unknown", not "ip:" followed by the (empty) header value. *)
Lemma empty_ip_header_gets_unknown :
  hdr_get (req_headers empty_ip_req) "cf-connecting-ip" = Some "" /\
  snd (extractRateLimitKey (stub_host None None (counting_limiter 5)) empty_ip_req "ip")
    = "ip:unknown" /\
  snd (extractRateLimitKey (stub_host None None (counting_limiter 5)) empty_ip_req "ip")
    <> "ip:" ++ "".
Proof. split; [|split]; vm_compute; [reflexivity | reflexivity | discriminate]. Qed.

Lemma rate_limit_key_shape_witness :
  snd (extractRateLimitKey (stub_host None None (counting_limiter 5)) register_req "ip")
    = "ip:1.2.3.4".
Proof.
  apply (proj1 (proj2 (proj2 (rate_limit_key_shape (stub_host None None (counting_limiter 5))
                                 register_req "ip")) eq_refl) "1.2.3.4");
    [reflexivity | discriminate].
Defined.

Lemma same_email_key_two_limiter_calls_witness :
  let '((_, ev1), (_, ev2), _) :=
    fetch_two (login_host (counting_limiter 1)) login_json_req login_form_req
              ["LOGIN_RATE_LIMITER"] 0 in
  limit_calls ev1 = [("LOGIN_RATE_LIMITER", "email:user@example.com")] /\
  limit_calls ev2 = [("LOGIN_RATE_LIMITER", "email:user@example.com")].
Proof.
  apply (proj1 (same_email_key_two_limiter_calls (login_host (counting_limiter 1))
                  login_json_req login_form_req ["LOGIN_RATE_LIMITER"] 0
                  "email:user@example.com" eq_refl eq_refl eq_refl eq_refl eq_refl)).
Defined.

Lemma missing_binding_skips_extraction_witness :
  limit_calls (snd (checkRateLimit (login_host (counting_limiter 5)) login_json_req [] 0)) = [].
Proof.
  apply (proj1 (proj2 (missing_binding_skips_extraction (login_host (counting_limiter 5))
                         login_json_req [] 0 (mkEndpointConfig "LOGIN_RATE_LIMITER" "email")
                         eq_refl eq_refl))).
Defined.

Lemma extract_body_read_iff_witness :
  In BodyRead (fst (extractRateLimitKey (login_host (counting_limiter 5)) login_json_req "email")).
Proof.
  apply (proj2 (proj2 (extract_body_read_iff (login_host (counting_limiter 5))
                         login_json_req "email"))).
  split; reflexivity.
Defined.

Lemma form_type_takes_precedence_witness :
  extractRateLimitKey (with_parse_json (login_host (counting_limiter 5)) (fun _ => None))
                      login_form_req "email" =
  extractRateLimitKey (login_host (counting_limiter 5)) login_form_req "email".
Proof.
  apply form_type_takes_precedence. reflexivity.
Defined.

Lemma extract_warning_implies_ip_key_witness :
  snd (extractRateLimitKey (stub_host None None (counting_limiter 5)) login_json_req "email")
    = ip_key login_json_req.
Proof.
  apply (proj2 (extract_warning_implies_ip_key (stub_host None None (counting_limiter 5))
                  login_json_req "email" ltac:(cbv; auto))).
Defined.

Lemma json_non_string_email_falls_back_witness :
  extractRateLimitKey
    (stub_host None (Some (JObj [("email", JNum 5); ("username", JStr "bob")])) (counting_limiter 5))
    login_json_req "email"
  = ([BodyRead; Warn extract_warning], ip_key login_json_req).
Proof.
  apply (json_non_string_email_falls_back
           (stub_host None (Some (JObj [("email", JNum 5); ("username", JStr "bob")]))
                      (counting_limiter 5))
           login_json_req (JObj [("email", JNum 5); ("username", JStr "bob")]) (JV (JNum 5)));
    try reflexivity.
  intros str. discriminate.
Defined.

Lemma decision_reflects_reply_witness :
  endpoint (mkDecision false "ip:1.2.3.4" REGISTER_PATH) = req_pathname register_req.
Proof.
  apply (proj1 (decision_reflects_reply (stub_host None None (counting_limiter 5))
                  register_req ["LOGIN_RATE_LIMITER"] 0
                  (mkDecision false "ip:1.2.3.4" REGISTER_PATH) ltac:(reflexivity))).
Defined.

Lemma allowed_request_forwarded_witness :
  fst (fetch (stub_host None None (counting_limiter 5)) register_req ["LOGIN_RATE_LIMITER"] 0) =
  (mkResponse 200 [] ("backend:" ++ REGISTER_PATH), 1).
Proof.
  apply (allowed_request_forwarded (stub_host None None (counting_limiter 5))
           register_req ["LOGIN_RATE_LIMITER"] 0 1 REGISTER_CFG); reflexivity.
Defined.

Lemma fetch_body_read_only_on_login_witness :
  req_pathname login_json_req = TOKEN_PATH.
Proof.
  apply (proj1 (proj2 (fetch_body_read_only_on_login (login_host (counting_limiter 5))
                         login_json_req ["LOGIN_RATE_LIMITER"] 0) ltac:(cbv; auto))).
Defined.
